(** * Deck builder: build_playwright_mcp_demo.py

    A shallow embedding of the script that assembles the Playwright MCP
    demo deck, and the properties of its specification.

    The script drives the python-pptx document model.  The part of that
    model the script touches is embedded in [Module Pptx]: a presentation
    owns an ordered list of slides, a slide owns an ordered list of shapes
    and an optional notes slide, a text frame always holds at least one
    paragraph.  The script's own functions are embedded in [Module Deck]
    under the names they have in the source. *)

From Stdlib Require Import String Ascii List ZArith Bool Arith Lia.
Import ListNotations.

Local Open Scope string_scope.
Local Open Scope list_scope.

(** ** Failure *)

(** The exceptions that can leave the script: an I/O failure on a path
    (raised by the document library when a file cannot be opened or
    written); the argument parser's error exit ([SystemExit] with status
    2, after its usage message on standard error); and the argument
    parser's exit after it printed its help ([SystemExit] with status
    0). *)
Inductive error : Type :=
| IOError (path : string)
| UsageError
| HelpExit.

Definition Err (A : Type) : Type := (error + A)%type.

Definition ret {A : Type} (a : A) : Err A := inr a.
Definition raise {A : Type} (e : error) : Err A := inl e.

Definition bind {A B : Type} (m : Err A) (k : A -> Err B) : Err B :=
  match m with
  | inl e => inl e
  | inr a => k a
  end.

Declare Scope err_scope.
Delimit Scope err_scope with err.
Notation "x <- m ;; k" := (bind m (fun x => k))
  (at level 61, m at next level, right associativity) : err_scope.

(** What the process can observe outside itself: which paths can be read
    as an image, which can be written, and what [str(date.today())] is. *)
Record env : Type := {
  readable : string -> bool;
  writable : string -> bool;
  today : string
}.

(** Python truthiness of a [str]: true exactly when it is not empty. *)
Definition truthy (s : string) : bool :=
  match s with
  | EmptyString => false
  | String _ _ => true
  end.

(** ["\n"] *)
Definition newline : string := String (ascii_of_nat 10) EmptyString.

(** [sep.join(parts)] *)
Fixpoint join (sep : string) (parts : list string) : string :=
  match parts with
  | [] => ""
  | [s] => s
  | s :: rest => (s ++ sep ++ join sep rest)%string
  end.

(** ** The document model of the library *)
Module Pptx.

(** Lengths are English Metric Units. *)
Definition Emu : Type := Z.

(** [Inches(t / 10)]: the script only uses multiples of a tenth of an
    inch, given here in tenths; an inch is 914400 EMU. *)
Definition Inches (tenths : Z) : Emu := (tenths * 91440)%Z.

(** [Pt(n)]: a point is 12700 EMU. *)
Definition Pt (n : Z) : Emu := (n * 12700)%Z.

Record RGBColor : Type := { red : Z; green : Z; blue : Z }.

(** A paragraph: its text, its indentation level and the font
    properties the script sets ([None]: inherited). *)
Record paragraph : Type := {
  p_text : string;
  p_level : nat;
  p_font_size : option Emu;
  p_font_bold : option bool;
  p_font_color : option RGBColor
}.

Definition empty_paragraph : paragraph :=
  {| p_text := ""; p_level := 0; p_font_size := None;
     p_font_bold := None; p_font_color := None |}.

Definition set_text (s : string) (p : paragraph) : paragraph :=
  {| p_text := s; p_level := p_level p; p_font_size := p_font_size p;
     p_font_bold := p_font_bold p; p_font_color := p_font_color p |}.

(** [r = p.add_run(); r.text = s]: the run is appended to what the
    paragraph already holds. *)
Definition add_run_text (s : string) (p : paragraph) : paragraph :=
  set_text (p_text p ++ s)%string p.

Definition set_level (n : nat) (p : paragraph) : paragraph :=
  {| p_text := p_text p; p_level := n; p_font_size := p_font_size p;
     p_font_bold := p_font_bold p; p_font_color := p_font_color p |}.

Definition set_font_size (sz : Emu) (p : paragraph) : paragraph :=
  {| p_text := p_text p; p_level := p_level p; p_font_size := Some sz;
     p_font_bold := p_font_bold p; p_font_color := p_font_color p |}.

Definition set_font_bold (b : bool) (p : paragraph) : paragraph :=
  {| p_text := p_text p; p_level := p_level p; p_font_size := p_font_size p;
     p_font_bold := Some b; p_font_color := p_font_color p |}.

Definition set_font_color (c : RGBColor) (p : paragraph) : paragraph :=
  {| p_text := p_text p; p_level := p_level p; p_font_size := p_font_size p;
     p_font_bold := p_font_bold p; p_font_color := Some c |}.

(** A text frame is never without a paragraph: [tf.paragraphs[0]]
    always exists. *)
Record text_frame : Type := {
  tf_first : paragraph;
  tf_more : list paragraph
}.

(** [tf.paragraphs] *)
Definition paragraphs (tf : text_frame) : list paragraph :=
  tf_first tf :: tf_more tf.

(** [tf.clear()]: all paragraphs but one are removed, and that one is
    emptied. *)
Definition clear (tf : text_frame) : text_frame :=
  {| tf_first := set_text "" (tf_first tf); tf_more := [] |}.

(** The frame of a text box that was just created. *)
Definition new_text_frame : text_frame :=
  {| tf_first := empty_paragraph; tf_more := [] |}.

(** [tf.add_paragraph()]: a new empty paragraph at the end; the second
    component is the position of the paragraph handed back. *)
Definition add_paragraph (tf : text_frame) : text_frame * nat :=
  ({| tf_first := tf_first tf; tf_more := tf_more tf ++ [empty_paragraph] |},
   S (length (tf_more tf))).

(** A mutation [f] of the paragraph object at position [i]. *)
Fixpoint modify_nth (i : nat) (f : paragraph -> paragraph)
         (ps : list paragraph) : list paragraph :=
  match ps, i with
  | [], _ => []
  | p :: rest, O => f p :: rest
  | p :: rest, S j => p :: modify_nth j f rest
  end.

Definition modify_paragraph (i : nat) (f : paragraph -> paragraph)
           (tf : text_frame) : text_frame :=
  match i with
  | O => {| tf_first := f (tf_first tf); tf_more := tf_more tf |}
  | S j => {| tf_first := tf_first tf; tf_more := modify_nth j f (tf_more tf) |}
  end.

Record geometry : Type := { left : Emu; top : Emu; width : Emu; height : Emu }.

Inductive shape : Type :=
| Picture (image_file : string) (g : geometry)
| TextBox (g : geometry) (tf : text_frame).

(** A slide: its shapes in creation order and its notes slide, which
    exists only once [slide.notes_slide] was asked for. *)
Record slide : Type := {
  shapes : list shape;
  notes : option text_frame
}.

Record presentation : Type := {
  slide_width : Emu;
  slide_height : Emu;
  slides : list slide
}.

(** [Presentation()]: the default template, 10in by 7.5in, no slide. *)
Definition Presentation : presentation :=
  {| slide_width := Inches 100; slide_height := Inches 75; slides := [] |}.

(** A slide made from layout 6 (Blank): no shape, no notes. *)
Definition blank_slide : slide := {| shapes := []; notes := None |}.

Definition add_shape (sh : shape) (s : slide) : slide :=
  {| shapes := shapes s ++ [sh]; notes := notes s |}.

(** [slide.shapes.add_picture(path, left, top, width, height)]: the
    image file is opened, which fails on a path that cannot be read. *)
Definition add_picture (e : env) (path : string) (g : geometry)
           (s : slide) : Err slide :=
  if readable e path then ret (add_shape (Picture path g) s)
  else raise (IOError path).

(** [slide.shapes.add_textbox(left, top, width, height)] followed by the
    mutations [fill] of its text frame. *)
Definition add_textbox (g : geometry) (fill : text_frame -> text_frame)
           (s : slide) : slide :=
  add_shape (TextBox g (fill new_text_frame)) s.

(** [slide.notes_slide.notes_text_frame]: the notes slide is created on
    first access. *)
Definition notes_text_frame (s : slide) : text_frame :=
  match notes s with
  | Some tf => tf
  | None => new_text_frame
  end.

Definition set_notes (tf : text_frame) (s : slide) : slide :=
  {| shapes := shapes s; notes := Some tf |}.

(** The presentation with [s] as one more slide at the end. *)
Definition append_slide (s : slide) (prs : presentation) : presentation :=
  {| slide_width := slide_width prs; slide_height := slide_height prs;
     slides := slides prs ++ [s] |}.

(** [prs.slides.add_slide(prs.slide_layouts[6])]: a blank slide is put at
    the end of the presentation at once, and is handed back. *)
Definition add_slide (prs : presentation) : presentation * slide :=
  (append_slide blank_slide prs, blank_slide).

(** The slide handed back by [add_slide] is the last slide of the
    presentation, not a copy of it: what is done to it afterwards is
    seen there.  [put_slide s prs] is the presentation whose last slide
    has become [s]. *)
Definition put_slide (s : slide) (prs : presentation) : presentation :=
  {| slide_width := slide_width prs; slide_height := slide_height prs;
     slides := removelast (slides prs) ++ [s] |}.

End Pptx.

(** ** The script *)
Module Deck.
Import Pptx.
Local Open Scope err_scope.

(** A bullet item as [add_bullets] tells them apart: a [str], a [list]
    or [tuple] of texts (possibly empty), or a value of any other type. *)
Inductive item : Type :=
| IStr (s : string)
| ISeq (elems : list string)
| IOther.

Definition geom (l t w h : Emu) : geometry :=
  {| left := l; top := t; width := w; height := h |}.

Definition add_bg_image (e : env) (slide : slide) (image_path : string)
           (prs : presentation) : Err Pptx.slide :=
  add_picture e image_path (geom 0%Z 0%Z (slide_width prs) (slide_height prs)) slide.

Definition black : RGBColor := {| red := 0; green := 0; blue := 0 |}.

Definition add_title (slide : slide) (title_text : string) : Pptx.slide :=
  add_textbox (geom (Inches 7) (Inches 6) (Inches 100) (Inches 12))
    (fun tf =>
       let tf := clear tf in
       let p := 0 in
       let tf := modify_paragraph p (add_run_text title_text) tf in
       let tf := modify_paragraph p (set_font_size (Pt 44)) tf in
       let tf := modify_paragraph p (set_font_bold true) tf in
       modify_paragraph p (set_font_color black) tf)
    slide.

Definition add_subtitle (slide : slide) (subtitle_text : string) : Pptx.slide :=
  add_textbox (geom (Inches 7) (Inches 16) (Inches 100) (Inches 15))
    (fun tf =>
       let tf := clear tf in
       let p := 0 in
       let tf := modify_paragraph p (set_text subtitle_text) tf in
       let tf := modify_paragraph p (set_font_size (Pt 20)) tf in
       modify_paragraph p (set_font_color black) tf)
    slide.

(** The variables [add_line] closes over: the frame and the [first]
    flag. *)
Record line_state : Type := {
  ls_tf : text_frame;
  ls_first : bool
}.

Definition add_line (text : string) (level : nat) (st : line_state) : line_state :=
  let '(tf, p) :=
    if ls_first st then (ls_tf st, 0) else add_paragraph (ls_tf st) in
  let tf := modify_paragraph p (set_text text) tf in
  let tf := modify_paragraph p (set_level level) tf in
  let tf := modify_paragraph p (set_font_size (Pt 22)) tf in
  {| ls_tf := tf; ls_first := false |}.

(** The body of the loop over [bullets]. *)
Definition add_item (st : line_state) (it : item) : line_state :=
  match it with
  | IStr s => add_line s 0 st
  | ISeq [] => st
  | ISeq (heading :: subs) =>
      fold_left (fun st sub => add_line sub 1 st) subs (add_line heading 0 st)
  | IOther => st
  end.

Definition add_bullets_frame (bullets : list item) (tf : text_frame) : text_frame :=
  let tf := clear tf in
  ls_tf (fold_left add_item bullets {| ls_tf := tf; ls_first := true |}).

Definition add_bullets (slide : slide) (bullets : list item) : Pptx.slide :=
  add_textbox (geom (Inches 7) (Inches 22) (Inches 100) (Inches 51))
    (add_bullets_frame bullets) slide.

Definition add_notes (slide : slide) (notes_text : string) : Pptx.slide :=
  if negb (truthy notes_text) then slide
  else
    let tf := notes_text_frame slide in
    let tf := clear tf in
    let tf := modify_paragraph 0 (set_text notes_text) tf in
    set_notes tf slide.

(** What a slide builder leaves: on return, the presentation, to which
    the slide now belongs, and the slide; when an exception leaves it,
    the exception and the presentation as the caller finds it then. *)
Definition Added : Type := (error * presentation + presentation * Pptx.slide)%type.

(** The blank slide is in the presentation before the picture is asked
    for, so a picture that cannot be read leaves it there, bare. *)
Definition add_content_slide (e : env) (prs : presentation)
           (template_image title : string) (bullets : list item)
           (notes : string) : Added :=
  let '(prs, slide) := add_slide prs in
  match add_bg_image e slide template_image prs with
  | inl err => inl (err, prs)
  | inr slide =>
      let slide := add_title slide title in
      let slide := add_bullets slide bullets in
      let slide := add_notes slide notes in
      inr (put_slide slide prs, slide)
  end.

(** The lines of the subtitle block, in the order they are appended. *)
Definition subtitle_lines (subtitle presenter org when : string) : list string :=
  let lines := [subtitle] in
  let lines := if truthy presenter then lines ++ [presenter] else lines in
  let lines := if truthy org then lines ++ [org] else lines in
  lines ++ [when].

Definition add_title_slide (e : env) (prs : presentation)
           (template_image title subtitle presenter org when : string)
  : Added :=
  let '(prs, slide) := add_slide prs in
  match add_bg_image e slide template_image prs with
  | inl err => inl (err, prs)
  | inr slide =>
      let slide := add_title slide title in
      let slide :=
        add_subtitle slide (join newline (subtitle_lines subtitle presenter org when)) in
      inr (put_slide slide prs, slide)
  end.

(** An exception that leaves [build_prs] takes the presentation with it:
    [prs] is local to [build_prs], nothing else refers to it. *)
Definition leave (r : Added) : Err (presentation * Pptx.slide) :=
  match r with
  | inl (err, _) => inl err
  | inr added => inr added
  end.

(** The parsed command line. *)
Record args : Type := {
  template_image : string;
  out : string;
  title : string;
  presenter : string;
  org : string;
  date : string
}.

Definition deck_subtitle : string :=
  "Definition, Architecture, Components, Uses, Installation, Execution, References".

(** The compiled-in content: (title, bullets, notes) per slide. *)
Definition slide_specs : list (string * list item * string) :=
  [
    ("Agenda",
     [
      IStr "What is Playwright?";
      IStr "What is MCP (Model Context Protocol)?";
      IStr "Why Playwright + MCP";
      IStr "Architecture";
      IStr "Components";
      IStr "Uses";
      IStr "Install steps";
      IStr "Execute steps (demo flow)";
      IStr "References"
     ],
     "Set expectations and timing.");
    ("What is Playwright?",
     [
      IStr "Open-source end-to-end testing framework by Microsoft";
      IStr "Automates Chromium, Firefox, WebKit across Windows, macOS, Linux, CI";
      IStr "Fast, reliable, headless or headed modes";
      IStr "Rich tooling: Codegen, Trace Viewer, HTML reports";
      IStr "Great for E2E, smoke, visual, and API-assisted flows"
     ],
     "Emphasize cross-browser parity and dev tooling.");
    ("What is MCP (Model Context Protocol)?",
     [
      IStr "Protocol to safely connect LLMs to external tools and data";
      IStr "Standardizes capabilities (tools/procedures, resources, prompts)";
      IStr "Decouples LLMs from vendor-specific plugins";
      IStr "Enables auditable, permissioned tool usage"
     ],
     "MCP as a clean contract between LLMs and tools.");
    ("Why Combine Playwright + MCP?",
     [
      IStr "Natural-language control of browsers via standardized tools";
      IStr "Automate tasks and verifications with LLM guidance";
      IStr "Reproduce flaky flows and triage with traces/logs";
      IStr "Fits CI/CD and guardrails; observability via Playwright artifacts"
     ],
     "Bridge developer and AI operator workflows.");
    ("Architecture",
     [
      IStr "LLM Client ↔ MCP Client/Transport ↔ Playwright MCP Server ↔ Playwright Core ↔ Target Web App";
      IStr "Optional: Secrets store, config, logging/telemetry, sandboxing"
     ],
     "Highlight trust boundaries and policy points.");
    ("Core Components",
     [
      ISeq ["MCP Client:";
            "Connects LLM to MCP servers";
            "Presents tools/resources to the model"];
      ISeq ["Playwright MCP Server:";
            "navigate, click, fill, waitFor, screenshot, extract, runTest";
            "Config: browser type, headless, storage state, timeouts"];
      ISeq ["Playwright Runtime:";
            "Browsers, isolation contexts, tracing, reports"]
     ],
     "Clarify responsibilities and config.");
    ("Common Uses",
     [
      IStr "E2E and smoke runs via natural-language prompts";
      IStr "Repro/triage regressions with scripts and traces";
      IStr "Data extraction and validation from internal apps";
      IStr "Visual verifications and review screenshots";
      IStr "CI bots that verify 'happy path' before merge"
     ],
     "Map to concrete workflows.");
    ("Prerequisites",
     [
      IStr "Node.js 18+ and Git";
      IStr "macOS/Windows/Linux with browser deps";
      IStr "Optional: VS Code and npm/yarn/pnpm";
      IStr "MCP-capable client (e.g., Claude Desktop) for LLM control"
     ],
     "Note proxies/sandbox considerations.");
    ("Install: Playwright",
     [
      IStr "npm init -y";
      IStr "npm i -D @playwright/test";
      IStr "npx playwright install --with-deps";
      IStr "Optional: npx playwright test --ui; npx playwright codegen https://example.com"
     ],
     "Verify browsers downloaded; run a sample test.");
    ("Install: Playwright MCP Server (example)",
     [
      IStr "git clone <playwright-mcp-server-repo> && cd <repo>";
      IStr "npm i && npm run build";
      IStr "Configure .env: BROWSER, HEADLESS, TIMEOUTS, STORAGE_STATE";
      IStr "npm start (verify local run)"
     ],
     "Replace with your team’s server repo.");
    ("Configure MCP Client",
     [
      IStr "Add server in client (e.g., Claude Desktop Tools/Servers)";
      IStr "Command: node dist/index.js; Working dir: server root";
      IStr "Env: HEADLESS=true, BROWSER=chromium, etc.";
      IStr "Validate tools: playwright.navigate, playwright.click, playwright.screenshot"
     ],
     "Dry run to list available procedures.");
    ("Execute: LLM-Driven Demo",
     [
      IStr "Start server: npm start";
      IStr "Prompt: Open URL → Click Sign In → Fill creds → Submit";
      IStr "Screenshot and confirm dashboard visible";
      IStr "Collect artifacts: screenshots, traces"
     ],
     "Keep creds in secrets; show trace viewer.");
    ("Execute: Playwright Test CLI (non-LLM)",
     [
      IStr "npx playwright test";
      IStr "npx playwright show-report";
      IStr "npx playwright show-trace trace.zip"
     ],
     "Show parity with scripted flows.");
    ("CI/CD Integration (Example)",
     [
      IStr "Use official Playwright GitHub Action";
      IStr "Cache browsers for speed";
      IStr "Upload HTML report and trace artifacts"
     ],
     "Mention parallelization and flaky retry policy.");
    ("Security & Governance",
     [
      IStr "Least privilege; domain allowlists";
      IStr "Redact secrets/PII; vault-backed env vars";
      IStr "Logging/telemetry with sensitive-data filtering";
      IStr "Sandbox/brokered access for production targets"
     ],
     "Cover infosec expectations.");
    ("Troubleshooting",
     [
      IStr "Install browsers: npx playwright install";
      IStr "CI sandbox/headless issues: disable sandbox or run headed locally";
      IStr "Selectors flaky: prefer data-testid and proper waits";
      IStr "MCP connection errors: check path, permissions, env vars";
      IStr "Trace empty: enable tracing around actions"
     ],
     "Mini-FAQ for demos.");
    ("References",
     [
      IStr "Playwright Docs: https://playwright.dev";
      IStr "Test Intro: https://playwright.dev/docs/test-intro";
      IStr "CLI: https://playwright.dev/docs/test-cli";
      IStr "CI Guides: https://playwright.dev/docs/ci";
      IStr "Trace Viewer: https://playwright.dev/docs/trace-viewer";
      IStr "MCP Spec: https://modelcontextprotocol.io";
      IStr "Claude + MCP Getting Started: https://docs.anthropic.com/claude/docs/mcp-get-started"
     ],
     "Add your internal repo link.")
  ].

(** The loop of [build_prs] over the content list. *)
Fixpoint add_content_slides (e : env) (prs : presentation)
         (template_image : string)
         (specs : list (string * list item * string)) : Err presentation :=
  match specs with
  | [] => ret prs
  | (title, bullets, notes) :: rest =>
      r <- leave (add_content_slide e prs template_image title bullets notes) ;;
      add_content_slides e (fst r) template_image rest
  end.

(** [x or y] on strings. *)
Definition str_or (x y : string) : string := if truthy x then x else y.

Definition build_prs (e : env) (a : args) : Err presentation :=
  let prs := Presentation in
  r <- leave (add_title_slide e prs (template_image a) (title a) deck_subtitle
                (presenter a) (org a) (str_or (date a) (today e))) ;;
  let prs := fst r in
  add_content_slides e prs (template_image a) slide_specs.

(** The options of a command line: each is given, with its value, or
    not. *)
Record cli : Type := {
  cli_template_image : option string;
  cli_out : option string;
  cli_title : option string;
  cli_presenter : option string;
  cli_org : option string;
  cli_date : option string
}.

Definition with_default (o : option string) (default : string) : string :=
  match o with
  | Some s => s
  | None => default
  end.

(** A command line as the parser built in [main] takes it: made of the
    script's six options only; or one on which the parser meets [-h] or
    [--help], which it has by default, and prints the help [text] it
    formats; or one that the parser refuses for what it holds (an
    option it does not know, a stray argument, an option without its
    value). *)
Inductive invocation : Type :=
| Options (c : cli)
| Help (text : string)
| Unrecognized.

Coercion Options : cli >-> invocation.

(** The parser built in [main]: [--template-image] is required, the
    other options have defaults. *)
Definition parse_args (i : invocation) : Err args :=
  match i with
  | Options c =>
      match cli_template_image c with
      | None => raise UsageError
      | Some img =>
          ret {| template_image := img;
                 out := with_default (cli_out c) "Playwright-MCP-Demo.pptx";
                 title := with_default (cli_title c) "Playwright MCP Demo";
                 presenter := with_default (cli_presenter c) "Sheshashayan Papanna";
                 org := with_default (cli_org c) "";
                 date := with_default (cli_date c) "07/11/2025" |}
      end
  | Help _ => raise HelpExit
  | Unrecognized => raise UsageError
  end.

(** What a run leaves behind: the files written, most recent first, and
    what was printed on standard output, in order.  Standard error, where
    the parser writes its usage message and the interpreter the
    traceback of an exception, is not recorded. *)
Record world : Type := {
  files : list (string * presentation);
  stdout : list string
}.

(** [prs.save(path)]; what a failed save leaves at the path is up to the
    library and is not recorded. *)
Definition save (e : env) (prs : presentation) (path : string)
           (w : world) : Err world :=
  if writable e path
  then ret {| files := (path, prs) :: files w; stdout := stdout w |}
  else raise (IOError path).

Definition print (line : string) (w : world) : world :=
  {| files := files w; stdout := stdout w ++ [line] |}.

(** What the parser itself prints on standard output before it raises:
    its help, when asked for it. *)
Definition parser_prints (i : invocation) (w : world) : world :=
  match i with
  | Help text => print text w
  | Options _ => w
  | Unrecognized => w
  end.

(** [main]: the world after the run, and the exception that ended it if
    there was one. *)
Definition main (e : env) (i : invocation) (w : world) : world * option error :=
  match parse_args i with
  | inl err => (parser_prints i w, Some err)
  | inr a =>
      match build_prs e a with
      | inl err => (w, Some err)
      | inr prs =>
          match save e prs (out a) w with
          | inl err => (w, Some err)
          | inr w => (print ("Wrote " ++ out a)%string w, None)
          end
      end
  end.

End Deck.

(** ** Reading a built document *)
Module Observe.
Import Pptx.

(** The text frames of a slide's text boxes, in creation order. *)
Definition text_frames (s : slide) : list text_frame :=
  flat_map (fun sh => match sh with
                      | TextBox _ tf => [tf]
                      | Picture _ _ => []
                      end) (shapes s).

(** The text of a frame: its paragraphs' texts, one per line. *)
Definition frame_text (tf : text_frame) : string :=
  join newline (map p_text (paragraphs tf)).

(** The title box is the first text box made on a slide, the body box
    (subtitle block or bullet outline) the second. *)
Definition title_box (s : slide) : option text_frame := nth_error (text_frames s) 0.
Definition body_box (s : slide) : option text_frame := nth_error (text_frames s) 1.

Definition slide_title (s : slide) : option string :=
  option_map frame_text (title_box s).

(** The subtitle text of the title slide, the first slide of a deck. *)
Definition deck_subtitle_text (prs : presentation) : option string :=
  match slides prs with
  | [] => None
  | s :: _ => option_map frame_text (body_box s)
  end.

(** Text and outline depth of a paragraph. *)
Definition para_line (p : paragraph) : string * nat := (p_text p, p_level p).

End Observe.

(** ** The bullet outline *)
Module Outline.
Import Pptx Deck Observe.

(** The normalization rule in the words of the specification: a line
    of text is one entry at depth 0; a group is its heading at depth 0
    followed by its sublines at depth 1; anything else renders nothing. *)
Definition outline_of_item (it : item) : list (string * nat) :=
  match it with
  | IStr s => [(s, 0)]
  | ISeq (heading :: subs) => (heading, 0) :: map (fun sub => (sub, 1)) subs
  | ISeq [] => []
  | IOther => []
  end.

Definition outline (bullets : list item) : list (string * nat) :=
  flat_map outline_of_item bullets.

(** A paragraph as [add_line] leaves it. *)
Definition bullet_paragraph (l : string * nat) : paragraph :=
  {| p_text := fst l; p_level := snd l; p_font_size := Some (Pt 22);
     p_font_bold := None; p_font_color := None |}.

(** The number of sublines of an item. *)
Definition sub_items (it : item) : nat :=
  match it with
  | ISeq (_ :: subs) => length subs
  | _ => 0
  end.

(** Top-level items plus sub-items of a bullet specification. *)
Definition bullet_total (bullets : list item) : nat :=
  length bullets + list_sum (map sub_items bullets).

(** An item of the data model: a line, or a group that has a heading. *)
Definition has_heading (it : item) : Prop :=
  match it with
  | IStr _ => True
  | ISeq (_ :: _) => True
  | ISeq [] => False
  | IOther => False
  end.

Definition bullets_geometry : geometry :=
  geom (Inches 7) (Inches 22) (Inches 100) (Inches 51).

End Outline.

(** ** Slides without the failure path *)
Module Built.
Import Pptx Deck.

(** A blank slide that received the background picture. *)
Definition backdrop (prs : presentation) (img : string) : slide :=
  add_shape (Picture img (geom 0%Z 0%Z (slide_width prs) (slide_height prs)))
            blank_slide.

(** The slide [add_content_slide] makes when the picture can be read. *)
Definition content_slide (prs : presentation) (img title : string)
           (bullets : list item) (notes : string) : slide :=
  add_notes (add_bullets (add_title (backdrop prs img) title) bullets) notes.

(** The slide [add_title_slide] makes when the picture can be read. *)
Definition title_slide (prs : presentation)
           (img title subtitle presenter org when : string) : slide :=
  add_subtitle (add_title (backdrop prs img) title)
               (join newline (subtitle_lines subtitle presenter org when)).

Definition append_content (img : string) (prs : presentation)
           (spec : string * list item * string) : presentation :=
  let '(title, bullets, notes) := spec in
  append_slide (content_slide prs img title bullets notes) prs.

(** The deck [build_prs] makes from [a] with [when] as its date line. *)
Definition built_deck (a : args) (when : string) : presentation :=
  fold_left (append_content (template_image a)) slide_specs
    (append_slide
       (title_slide Presentation (template_image a) (title a) deck_subtitle
                    (presenter a) (org a) when)
       Presentation).

End Built.

(** ** The slide invariant *)
Module Invariant.
Import Pptx Deck.

Definition is_picture (sh : shape) : bool :=
  match sh with
  | Picture _ _ => true
  | TextBox _ _ => false
  end.

(** A picture placed at the origin with the size of the slide canvas. *)
Definition fills_slide (prs : presentation) (sh : shape) : bool :=
  match sh with
  | Picture _ g =>
      ((left g =? 0) && (top g =? 0)
       && (width g =? slide_width prs) && (height g =? slide_height prs))%Z
  | TextBox _ _ => false
  end.

(** The title box is the text box at the top of the slide, 0.6in down;
    a text box anywhere else is a body box. *)
Definition is_title_box (sh : shape) : bool :=
  match sh with
  | TextBox g _ => (top g =? Inches 6)%Z
  | Picture _ _ => false
  end.

Definition is_body_box (sh : shape) : bool :=
  match sh with
  | TextBox g _ => negb (top g =? Inches 6)%Z
  | Picture _ _ => false
  end.

(** The notes blocks of a slide.  A slide of the document model has one
    place for a notes slide, filled or not, so there is never more than
    one. *)
Definition notes_blocks (s : slide) : list text_frame :=
  match notes s with
  | Some tf => [tf]
  | None => []
  end.

Definition count (f : shape -> bool) (s : slide) : nat :=
  length (filter f (shapes s)).

Definition slide_inv (prs : presentation) (s : slide) : Prop :=
  count is_picture s = 1
  /\ (forall sh, In sh (shapes s) -> is_picture sh = true -> fills_slide prs sh = true)
  /\ count is_title_box s <= 1
  /\ count is_body_box s <= 1
  /\ length (notes_blocks s) <= 1.

Definition deck_inv (prs : presentation) : Prop :=
  Forall (slide_inv prs) (slides prs).

(** The two operations that add a slide to a presentation, when they
    return. *)
Inductive adds_slide (e : env) : presentation -> presentation -> Prop :=
| adds_title_slide : forall prs img title subtitle presenter org when prs' s,
    add_title_slide e prs img title subtitle presenter org when = inr (prs', s) ->
    adds_slide e prs prs'
| adds_content_slide : forall prs img title bullets notes prs' s,
    add_content_slide e prs img title bullets notes = inr (prs', s) ->
    adds_slide e prs prs'.

(** The same two operations when an exception leaves them: [prs'] is the
    presentation the caller is left with. *)
Inductive fails_adding (e : env) : presentation -> presentation -> Prop :=
| fails_title_slide : forall prs img title subtitle presenter org when err prs',
    add_title_slide e prs img title subtitle presenter org when = inl (err, prs') ->
    fails_adding e prs prs'
| fails_content_slide : forall prs img title bullets notes err prs',
    add_content_slide e prs img title bullets notes = inl (err, prs') ->
    fails_adding e prs prs'.

End Invariant.

(** ** Sample runs *)
Module Sample.
Import Pptx Deck.

(** A machine on which only [t.png] can be read, on a given day. *)
Definition machine (day : string) : env :=
  {| readable := fun path => String.eqb path "t.png";
     writable := fun _ => true;
     today := day |}.

Definition jane : args :=
  {| template_image := "t.png"; out := "deck.pptx"; title := "Demo";
     presenter := "Jane Doe"; org := ""; date := "01/01/2030" |}.

(** [--template-image t.png --date ""] after parsing. *)
Definition undated : args :=
  {| template_image := "t.png"; out := "Playwright-MCP-Demo.pptx";
     title := "Playwright MCP Demo"; presenter := "Sheshashayan Papanna";
     org := ""; date := "" |}.

(** [--template-image t.png] *)
Definition only_image : cli :=
  {| cli_template_image := Some "t.png"; cli_out := None; cli_title := None;
     cli_presenter := None; cli_org := None; cli_date := None |}.

(** [--template-image missing.png] *)
Definition missing_image : cli :=
  {| cli_template_image := Some "missing.png"; cli_out := None; cli_title := None;
     cli_presenter := None; cli_org := None; cli_date := None |}.

Definition nothing_yet : world := {| files := []; stdout := [] |}.

Definition core_components : list item :=
  [ISeq ["MCP Client:"; "Connects LLM to MCP servers";
         "Presents tools/resources to the model"];
   IStr "Playwright Runtime"].

End Sample.

(** ** Reading notes and saved files back *)
Module Readback.
Import Pptx Deck Observe.

(** The text of a slide's notes block, when it has one. *)
Definition notes_text (s : slide) : option string :=
  option_map frame_text (notes s).

(** The outline depths of a frame's paragraphs, in order. *)
Definition levels (tf : text_frame) : list nat :=
  map p_level (paragraphs tf).

(** Two machines that differ at most in the day. *)
Definition same_files (e1 e2 : env) : Prop :=
  (forall path, readable e1 path = readable e2 path)
  /\ (forall path, writable e1 path = writable e2 path).

(** The output path [main] saves to: [--out] or its default. *)
Definition out_path (c : cli) : string :=
  with_default (cli_out c) "Playwright-MCP-Demo.pptx".

End Readback.

(** ** Facts about the bullet loop *)
Module OutlineFacts.
Import Pptx Deck Observe Outline.

Lemma modify_nth_last : forall f ps p,
  modify_nth (length ps) f (ps ++ [p]) = ps ++ [f p].
Proof.
  intros f ps p. induction ps as [|q ps IH]; simpl.
  - reflexivity.
  - now rewrite IH.
Qed.

(** The first call of [add_line] writes into the paragraph the cleared
    frame already has. *)
Lemma add_line_first : forall text level,
  add_line text level {| ls_tf := clear new_text_frame; ls_first := true |}
  = {| ls_tf := {| tf_first := bullet_paragraph (text, level); tf_more := [] |};
       ls_first := false |}.
Proof. reflexivity. Qed.

(** Every later call appends one paragraph. *)
Lemma add_line_next : forall text level tf,
  add_line text level {| ls_tf := tf; ls_first := false |}
  = {| ls_tf := {| tf_first := tf_first tf;
                   tf_more := tf_more tf ++ [bullet_paragraph (text, level)] |};
       ls_first := false |}.
Proof.
  intros text level tf. unfold add_line, add_paragraph. simpl.
  rewrite !modify_nth_last. reflexivity.
Qed.

Lemma sublines_next : forall subs tf,
  fold_left (fun st sub => add_line sub 1 st) subs {| ls_tf := tf; ls_first := false |}
  = {| ls_tf := {| tf_first := tf_first tf;
                   tf_more := tf_more tf
                              ++ map bullet_paragraph (map (fun sub => (sub, 1)) subs) |};
       ls_first := false |}.
Proof.
  induction subs as [|sub subs IH]; intros tf; simpl.
  - rewrite app_nil_r. now destruct tf.
  - rewrite add_line_next, IH. simpl. now rewrite <- app_assoc.
Qed.

(** Once a line was written, an item appends its outline. *)
Lemma add_item_next : forall it tf,
  add_item {| ls_tf := tf; ls_first := false |} it
  = {| ls_tf := {| tf_first := tf_first tf;
                   tf_more := tf_more tf ++ map bullet_paragraph (outline_of_item it) |};
       ls_first := false |}.
Proof.
  intros [s | [|heading subs] | ] tf; simpl.
  - apply add_line_next.
  - rewrite app_nil_r. now destruct tf.
  - rewrite add_line_next, sublines_next. simpl. now rewrite <- app_assoc.
  - rewrite app_nil_r. now destruct tf.
Qed.

Lemma add_items_next : forall bullets tf,
  fold_left add_item bullets {| ls_tf := tf; ls_first := false |}
  = {| ls_tf := {| tf_first := tf_first tf;
                   tf_more := tf_more tf ++ map bullet_paragraph (outline bullets) |};
       ls_first := false |}.
Proof.
  induction bullets as [|it bullets IH]; intros tf; simpl.
  - rewrite app_nil_r. now destruct tf.
  - rewrite add_item_next, IH. simpl.
    unfold outline. simpl. now rewrite map_app, app_assoc.
Qed.

(** The first item that renders a line writes it into the first
    paragraph. *)
Lemma add_item_first : forall it l ls,
  outline_of_item it = l :: ls ->
  add_item {| ls_tf := clear new_text_frame; ls_first := true |} it
  = {| ls_tf := {| tf_first := bullet_paragraph l;
                   tf_more := map bullet_paragraph ls |};
       ls_first := false |}.
Proof.
  intros [s | [|heading subs] | ] l ls H; simpl in H; try discriminate;
    injection H as <- <-; simpl.
  - apply add_line_first.
  - rewrite add_line_first, sublines_next. reflexivity.
Qed.

Lemma add_item_skip : forall it st,
  outline_of_item it = [] -> add_item st it = st.
Proof.
  intros [s | [|heading subs] | ] st H; simpl in H; try discriminate; reflexivity.
Qed.

(** The loop of [add_bullets], from the cleared frame. *)
Lemma add_bullets_frame_paragraphs : forall bullets,
  paragraphs (add_bullets_frame bullets new_text_frame)
  = match outline bullets with
    | [] => [empty_paragraph]
    | ls => map bullet_paragraph ls
    end.
Proof.
  unfold add_bullets_frame.
  induction bullets as [|it bullets IH]; simpl.
  - reflexivity.
  - unfold outline. simpl. fold (outline bullets).
    destruct (outline_of_item it) as [|l ls] eqn:E.
    + rewrite (add_item_skip _ _ E). simpl. exact IH.
    + rewrite (add_item_first _ _ _ E), add_items_next. simpl.
      unfold paragraphs. simpl. now rewrite map_app.
Qed.

Lemma para_line_bullet : forall ls,
  map para_line (map bullet_paragraph ls) = ls.
Proof.
  induction ls as [|[t l] ls IH]; simpl.
  - reflexivity.
  - now rewrite IH.
Qed.

Lemma outline_length : forall bullets,
  Forall has_heading bullets -> length (outline bullets) = bullet_total bullets.
Proof.
  unfold bullet_total, outline.
  induction 1 as [|it bullets Hit _ IH]; simpl.
  - reflexivity.
  - rewrite length_app, IH.
    destruct it as [s | [|heading subs] | ]; simpl in *; try contradiction.
    + lia.
    + rewrite length_map. lia.
Qed.

End OutlineFacts.

(** ** The bullet outline box *)
Module BulletClaims.
Import Pptx Deck Observe Outline OutlineFacts Built Sample.

(** [add_bullets] adds one text box, filled by the loop from a fresh
    frame. *)
Lemma add_bullets_shapes : forall slide bullets,
  shapes (add_bullets slide bullets)
  = shapes slide ++ [TextBox bullets_geometry (add_bullets_frame bullets new_text_frame)].
Proof. reflexivity. Qed.

(** C1.  The bullet outline box that [add_bullets] adds to a slide holds,
    as (text, depth) pairs and in input order, the renderings of the
    items one after the other: a line of text at depth 0, a group as its
    heading at depth 0 immediately followed by its sublines at depth 1.
    (When no item renders a line the box keeps its one empty
    paragraph.) *)
Theorem add_bullets_outline : forall slide bullets,
  exists tf,
    shapes (add_bullets slide bullets) = shapes slide ++ [TextBox bullets_geometry tf]
    /\ match outline bullets with
       | [] => paragraphs tf = [empty_paragraph]
       | ls => map para_line (paragraphs tf) = ls
       end.
Proof.
  intros slide bullets.
  exists (add_bullets_frame bullets new_text_frame). split.
  - apply add_bullets_shapes.
  - rewrite add_bullets_frame_paragraphs.
    destruct (outline bullets) as [|l ls]; [reflexivity|].
    apply para_line_bullet.
Qed.

Example core_components_outline :
  map para_line (paragraphs (add_bullets_frame core_components new_text_frame))
  = [("MCP Client:", 0); ("Connects LLM to MCP servers", 1);
     ("Presents tools/resources to the model", 1); ("Playwright Runtime", 0)].
Proof. reflexivity. Qed.

(** C2, as stated, fails on a content slide with no bullet: the box of
    the slide holds the one empty paragraph of a cleared frame, while
    the specification counts no item. *)
Lemma empty_bullets_one_paragraph :
  exists prs' s tf,
    add_content_slide (machine "2026-11-03") Presentation "t.png" "Agenda" [] ""
    = inr (prs', s)
    /\ body_box s = Some tf
    /\ length (paragraphs tf) = 1
    /\ bullet_total [] = 0
    /\ length (paragraphs tf) <> bullet_total [].
Proof.
  eexists _, _, _. split; [reflexivity|].
  split; [reflexivity|]. simpl. repeat split; discriminate.
Qed.

(** C2, amended.  When every item of the bullet specification is a line
    of text or a group with a heading, the number of paragraphs of the
    bullet outline box is the number of top-level items plus sub-items,
    and 1 (the empty paragraph) when the specification has no item. *)
Theorem add_bullets_paragraph_count : forall slide bullets,
  Forall has_heading bullets ->
  exists tf,
    shapes (add_bullets slide bullets) = shapes slide ++ [TextBox bullets_geometry tf]
    /\ length (paragraphs tf) = Nat.max 1 (bullet_total bullets).
Proof.
  intros slide bullets H.
  exists (add_bullets_frame bullets new_text_frame). split.
  - apply add_bullets_shapes.
  - rewrite add_bullets_frame_paragraphs, <- (outline_length _ H).
    destruct (outline bullets) as [|l ls]; [reflexivity|].
    rewrite length_map. simpl. reflexivity.
Qed.

Lemma add_bullets_paragraph_count_witness :
  Forall has_heading core_components
  /\ exists tf,
       shapes (add_bullets blank_slide core_components)
       = shapes blank_slide ++ [TextBox bullets_geometry tf]
       /\ length (paragraphs tf) = Nat.max 1 (bullet_total core_components).
Proof.
  assert (H : Forall has_heading core_components)
    by (repeat constructor).
  split; [exact H|].
  exact (add_bullets_paragraph_count blank_slide core_components H).
Defined.

(** Each compiled-in slide has exactly as many paragraphs as its
    specification has items and sub-items. *)
Example compiled_in_paragraph_counts :
  map (fun spec => length (paragraphs (add_bullets_frame (snd (fst spec)) new_text_frame)))
      slide_specs
  = map (fun spec => bullet_total (snd (fst spec))) slide_specs.
Proof. vm_compute. reflexivity. Qed.

(** C9.  An empty group among the bullets adds nothing: the slide is the
    one built from the bullets without it. *)
Theorem empty_group_skipped : forall slide pre post,
  add_bullets slide (pre ++ ISeq [] :: post) = add_bullets slide (pre ++ post).
Proof.
  intros slide pre post. unfold add_bullets, add_textbox, add_bullets_frame.
  rewrite !fold_left_app. reflexivity.
Qed.

Example empty_group_only :
  paragraphs (add_bullets_frame [ISeq []] new_text_frame) = [empty_paragraph].
Proof. reflexivity. Qed.

End BulletClaims.

(** ** Facts about the slide builders *)
Module BuildFacts.
Import Pptx Deck Observe Built.

Lemma truthy_true : forall s, truthy s = true <-> s <> "".
Proof.
  intros [|c s]; simpl; split; intros H; congruence.
Qed.

Lemma truthy_false : forall s, truthy s = false <-> s = "".
Proof.
  intros [|c s]; simpl; split; intros H; congruence.
Qed.

(** Writing the new slide back where [add_slide] put the blank one. *)
Lemma put_slide_added : forall s s0 prs,
  put_slide s (append_slide s0 prs) = append_slide s prs.
Proof.
  intros s s0 prs. unfold put_slide, append_slide.
  cbn [slides slide_width slide_height]. now rewrite removelast_last.
Qed.

Lemma add_content_slide_ok : forall e prs img title bullets notes,
  readable e img = true ->
  add_content_slide e prs img title bullets notes
  = inr (append_slide (content_slide prs img title bullets notes) prs,
         content_slide prs img title bullets notes).
Proof.
  intros e prs img title bullets notes H.
  unfold add_content_slide, add_bg_image, add_picture.
  cbn [add_slide]. rewrite H. cbv beta iota delta [ret].
  rewrite put_slide_added. reflexivity.
Qed.

(** A picture that cannot be read: the exception, and the presentation
    left with the blank slide. *)
Lemma add_content_slide_fail : forall e prs img title bullets notes,
  readable e img = false ->
  add_content_slide e prs img title bullets notes
  = inl (IOError img, append_slide blank_slide prs).
Proof.
  intros e prs img title bullets notes H.
  unfold add_content_slide, add_bg_image, add_picture.
  cbn [add_slide]. rewrite H. reflexivity.
Qed.

Lemma add_title_slide_ok : forall e prs img title subtitle presenter org when,
  readable e img = true ->
  add_title_slide e prs img title subtitle presenter org when
  = inr (append_slide (title_slide prs img title subtitle presenter org when) prs,
         title_slide prs img title subtitle presenter org when).
Proof.
  intros e prs img title subtitle presenter org when H.
  unfold add_title_slide, add_bg_image, add_picture.
  cbn [add_slide]. rewrite H. cbv beta iota delta [ret].
  rewrite put_slide_added. reflexivity.
Qed.

Lemma add_title_slide_fail : forall e prs img title subtitle presenter org when,
  readable e img = false ->
  add_title_slide e prs img title subtitle presenter org when
  = inl (IOError img, append_slide blank_slide prs).
Proof.
  intros e prs img title subtitle presenter org when H.
  unfold add_title_slide, add_bg_image, add_picture.
  cbn [add_slide]. rewrite H. reflexivity.
Qed.

(** A successful call tells that the picture could be read. *)
Lemma add_content_slide_inv : forall e prs img title bullets notes prs' s,
  add_content_slide e prs img title bullets notes = inr (prs', s) ->
  s = content_slide prs img title bullets notes /\ prs' = append_slide s prs.
Proof.
  intros e prs img title bullets notes prs' s H.
  destruct (readable e img) eqn:R.
  - rewrite (add_content_slide_ok _ _ _ _ _ _ R) in H.
    injection H as <- <-. split; reflexivity.
  - rewrite (add_content_slide_fail _ _ _ _ _ _ R) in H. discriminate.
Qed.

Lemma add_title_slide_inv : forall e prs img title subtitle presenter org when prs' s,
  add_title_slide e prs img title subtitle presenter org when = inr (prs', s) ->
  s = title_slide prs img title subtitle presenter org when /\ prs' = append_slide s prs.
Proof.
  intros e prs img title subtitle presenter org when prs' s H.
  destruct (readable e img) eqn:R.
  - rewrite (add_title_slide_ok _ _ _ _ _ _ _ _ R) in H.
    injection H as <- <-. split; reflexivity.
  - rewrite (add_title_slide_fail _ _ _ _ _ _ _ _ R) in H. discriminate.
Qed.

Lemma add_content_slide_failed : forall e prs img title bullets notes err prs',
  add_content_slide e prs img title bullets notes = inl (err, prs') ->
  readable e img = false /\ err = IOError img /\ prs' = append_slide blank_slide prs.
Proof.
  intros e prs img title bullets notes err prs' H.
  destruct (readable e img) eqn:R.
  - rewrite (add_content_slide_ok _ _ _ _ _ _ R) in H. discriminate.
  - rewrite (add_content_slide_fail _ _ _ _ _ _ R) in H.
    injection H as <- <-. repeat split.
Qed.

Lemma add_title_slide_failed :
  forall e prs img title subtitle presenter org when err prs',
  add_title_slide e prs img title subtitle presenter org when = inl (err, prs') ->
  readable e img = false /\ err = IOError img /\ prs' = append_slide blank_slide prs.
Proof.
  intros e prs img title subtitle presenter org when err prs' H.
  destruct (readable e img) eqn:R.
  - rewrite (add_title_slide_ok _ _ _ _ _ _ _ _ R) in H. discriminate.
  - rewrite (add_title_slide_fail _ _ _ _ _ _ _ _ R) in H.
    injection H as <- <-. repeat split.
Qed.

Lemma add_content_slides_ok : forall e img specs prs,
  readable e img = true ->
  add_content_slides e prs img specs = inr (fold_left (append_content img) specs prs).
Proof.
  intros e img specs prs H. revert prs.
  induction specs as [|[[title bullets] notes] specs IH]; intros prs.
  - reflexivity.
  - cbn [add_content_slides fold_left].
    rewrite (add_content_slide_ok _ _ _ _ _ _ H). cbn [bind fst].
    apply IH.
Qed.

Lemma add_content_slides_fail : forall e img spec specs prs,
  readable e img = false ->
  add_content_slides e prs img (spec :: specs) = inl (IOError img).
Proof.
  intros e img [[title bullets] notes] specs prs H.
  cbn [add_content_slides].
  rewrite (add_content_slide_fail _ _ _ _ _ _ H). reflexivity.
Qed.

Lemma build_prs_ok : forall e a,
  readable e (template_image a) = true ->
  build_prs e a = inr (built_deck a (str_or (date a) (today e))).
Proof.
  intros e a H. unfold build_prs.
  rewrite (add_title_slide_ok _ _ _ _ _ _ _ _ H). cbn [bind fst].
  apply add_content_slides_ok, H.
Qed.

Lemma build_prs_fail : forall e a,
  readable e (template_image a) = false ->
  build_prs e a = inl (IOError (template_image a)).
Proof.
  intros e a H. unfold build_prs.
  rewrite (add_title_slide_fail _ _ _ _ _ _ _ _ H). reflexivity.
Qed.

Lemma build_prs_inv : forall e a prs,
  build_prs e a = inr prs ->
  readable e (template_image a) = true
  /\ prs = built_deck a (str_or (date a) (today e)).
Proof.
  intros e a prs H. destruct (readable e (template_image a)) eqn:R.
  - rewrite (build_prs_ok _ _ R) in H. injection H as <-. split; reflexivity.
  - rewrite (build_prs_fail _ _ R) in H. discriminate.
Qed.

(** The loop appends one slide per specification and keeps the canvas. *)
Lemma append_contents_slides : forall img specs prs,
  slides (fold_left (append_content img) specs prs)
  = slides prs
    ++ map (fun spec => content_slide prs img (fst (fst spec)) (snd (fst spec)) (snd spec))
           specs
  /\ slide_width (fold_left (append_content img) specs prs) = slide_width prs
  /\ slide_height (fold_left (append_content img) specs prs) = slide_height prs.
Proof.
  intros img specs. induction specs as [|[[title bullets] notes] specs IH]; intros prs.
  - cbn [fold_left map]. rewrite app_nil_r. repeat split.
  - cbn [fold_left map]. destruct (IH (append_content img prs (title, bullets, notes)))
      as (Hs & Hw & Hh).
    rewrite Hs, Hw, Hh. cbn [append_content append_slide slides slide_width slide_height
                              fst snd].
    rewrite <- app_assoc. repeat split.
Qed.

Lemma built_deck_slides : forall a when,
  slides (built_deck a when)
  = title_slide Presentation (template_image a) (title a) deck_subtitle
                (presenter a) (org a) when
    :: map (fun spec => content_slide Presentation (template_image a)
                          (fst (fst spec)) (snd (fst spec)) (snd spec))
           slide_specs.
Proof.
  intros a when. unfold built_deck.
  destruct (append_contents_slides (template_image a) slide_specs
              (append_slide
                 (title_slide Presentation (template_image a) (title a) deck_subtitle
                    (presenter a) (org a) when) Presentation)) as (Hs & _ & _).
  rewrite Hs. reflexivity.
Qed.

Lemma subtitle_lines_closed : forall subtitle presenter org when,
  subtitle_lines subtitle presenter org when
  = [subtitle]
    ++ (if truthy presenter then [presenter] else [])
    ++ (if truthy org then [org] else [])
    ++ [when].
Proof.
  intros subtitle presenter org when. unfold subtitle_lines.
  destruct (truthy presenter), (truthy org); reflexivity.
Qed.

Lemma title_slide_body : forall prs img title subtitle presenter org when,
  option_map frame_text
    (body_box (title_slide prs img title subtitle presenter org when))
  = Some (join newline (subtitle_lines subtitle presenter org when)).
Proof. reflexivity. Qed.

Lemma add_notes_shapes : forall s n, shapes (add_notes s n) = shapes s.
Proof. intros s [|c n]; reflexivity. Qed.

End BuildFacts.

(** ** The built deck *)
Module DeckClaims.
Import Pptx Deck Observe Built BuildFacts Sample.

(** C3.  When the template image can be read, [build_prs] returns a
    document with exactly 1 + K slides, K the number of compiled-in
    content slide specifications, and K = 17. *)
Theorem build_prs_slide_count : forall e a,
  readable e (template_image a) = true ->
  exists prs,
    build_prs e a = inr prs
    /\ length (slides prs) = 1 + length slide_specs
    /\ length slide_specs = 17.
Proof.
  intros e a H. eexists. split; [apply build_prs_ok, H|].
  rewrite built_deck_slides. cbn [length]. rewrite length_map.
  split; reflexivity.
Qed.

Lemma build_prs_slide_count_witness :
  exists prs,
    build_prs (machine "2030-01-01") jane = inr prs
    /\ length (slides prs) = 1 + length slide_specs
    /\ length slide_specs = 17.
Proof.
  apply (build_prs_slide_count (machine "2030-01-01") jane). reflexivity.
Defined.

(** C4.  The subtitle block of the title slide is the subtitle line, then
    the presenter line, then the organization line, then the date line,
    where the presenter line is there exactly when the presenter string
    is not empty and the organization line exactly when the organization
    string is not empty. *)
Theorem subtitle_block_lines : forall e prs img title subtitle presenter org when,
  readable e img = true ->
  exists prs' s tf presenter_lines org_lines,
    add_title_slide e prs img title subtitle presenter org when = inr (prs', s)
    /\ body_box s = Some tf
    /\ frame_text tf
       = join newline ([subtitle] ++ presenter_lines ++ org_lines ++ [when])
    /\ (presenter_lines = [presenter] \/ presenter_lines = [])
    /\ (presenter_lines = [presenter] <-> presenter <> "")
    /\ (org_lines = [org] \/ org_lines = [])
    /\ (org_lines = [org] <-> org <> "").
Proof.
  intros e prs img title subtitle presenter org when H.
  eexists _, _, _,
    (if truthy presenter then [presenter] else []),
    (if truthy org then [org] else []).
  split; [apply add_title_slide_ok, H|].
  split; [reflexivity|].
  split.
  { rewrite <- subtitle_lines_closed. reflexivity. }
  pose proof (truthy_true presenter) as Hp. pose proof (truthy_true org) as Ho.
  destruct (truthy presenter), (truthy org); intuition congruence.
Qed.

Lemma subtitle_block_lines_witness :
  exists prs' s tf presenter_lines org_lines,
    add_title_slide (machine "2030-01-01") Presentation "t.png" "Demo" "Overview"
                    "Jane Doe" "" "01/01/2030" = inr (prs', s)
    /\ body_box s = Some tf
    /\ frame_text tf
       = join newline (["Overview"] ++ presenter_lines ++ org_lines ++ ["01/01/2030"])
    /\ (presenter_lines = ["Jane Doe"] \/ presenter_lines = [])
    /\ (presenter_lines = ["Jane Doe"] <-> "Jane Doe" <> "")
    /\ (org_lines = [""] \/ org_lines = [])
    /\ (org_lines = [""] <-> "" <> "").
Proof.
  apply (subtitle_block_lines (machine "2030-01-01") Presentation "t.png" "Demo"
           "Overview" "Jane Doe" "" "01/01/2030").
  reflexivity.
Defined.

Example subtitle_block_sample :
  option_map frame_text
    (body_box (title_slide Presentation "t.png" "Demo" "Overview" "Jane Doe" ""
                           "01/01/2030"))
  = Some (join newline ["Overview"; "Jane Doe"; "01/01/2030"]).
Proof. reflexivity. Qed.

(** The subtitle text of a built deck. *)
Lemma built_deck_subtitle : forall a when,
  deck_subtitle_text (built_deck a when)
  = Some (join newline (subtitle_lines deck_subtitle (presenter a) (org a) when)).
Proof.
  intros a when. unfold deck_subtitle_text. rewrite built_deck_slides.
  apply title_slide_body.
Qed.

(** C5, as stated, fails: with [--date] left out, on 2026-11-03, the
    date line of the subtitle block is the parser's default and not the
    day of the run. *)
Lemma omitted_date_is_not_today :
  cli_date only_image = None
  /\ exists a prs,
       parse_args only_image = inr a
       /\ build_prs (machine "2026-11-03") a = inr prs
       /\ deck_subtitle_text prs
          = Some (join newline [deck_subtitle; "Sheshashayan Papanna"; "07/11/2025"])
       /\ deck_subtitle_text prs
          <> Some (join newline [deck_subtitle; "Sheshashayan Papanna";
                                 today (machine "2026-11-03")]).
Proof.
  split; [reflexivity|].
  eexists _, _. split; [reflexivity|].
  split; [apply build_prs_ok; reflexivity|].
  rewrite built_deck_subtitle.
  split; [reflexivity|]. vm_compute. discriminate.
Qed.

(** C5, amended.  The date line of the subtitle block is the parser's
    default "07/11/2025" when the date argument is left out, the current
    date when the date argument is the empty string, and the date
    argument otherwise. *)
Theorem subtitle_date_line : forall e c img,
  cli_template_image c = Some img ->
  readable e img = true ->
  exists a prs,
    parse_args c = inr a
    /\ build_prs e a = inr prs
    /\ deck_subtitle_text prs
       = Some (join newline
                 (subtitle_lines deck_subtitle (presenter a) (org a)
                    match cli_date c with
                    | None => "07/11/2025"
                    | Some EmptyString => today e
                    | Some d => d
                    end)).
Proof.
  intros e c img Hc H. unfold parse_args. rewrite Hc.
  eexists _, _. split; [reflexivity|].
  split; [apply build_prs_ok; exact H|].
  rewrite built_deck_subtitle. cbn [presenter org date].
  destruct (cli_date c) as [[|ch d]|]; reflexivity.
Qed.

Lemma subtitle_date_line_witness :
  exists a prs,
    parse_args only_image = inr a
    /\ build_prs (machine "2026-11-03") a = inr prs
    /\ deck_subtitle_text prs
       = Some (join newline
                 (subtitle_lines deck_subtitle (presenter a) (org a) "07/11/2025")).
Proof.
  apply (subtitle_date_line (machine "2026-11-03") only_image "t.png");
    reflexivity.
Defined.

(** C7, as stated, fails: with the empty string given as the date, two
    runs on different days build different subtitle texts. *)
Lemma empty_date_differs_by_day :
  exists prs1 prs2,
    build_prs (machine "2026-11-03") undated = inr prs1
    /\ build_prs (machine "2026-11-04") undated = inr prs2
    /\ deck_subtitle_text prs1 <> deck_subtitle_text prs2.
Proof.
  eexists _, _.
  split; [apply build_prs_ok; reflexivity|].
  split; [apply build_prs_ok; reflexivity|].
  rewrite !built_deck_subtitle. vm_compute. discriminate.
Qed.

(** C7, amended.  Two runs of the builder that are given the same
    arguments, with a date string that is not empty, and that both
    build a document, agree on the slide count, on the slide titles in
    order and on the subtitle text of the title slide. *)
Theorem build_prs_reproducible : forall e1 e2 a prs1 prs2,
  date a <> "" ->
  build_prs e1 a = inr prs1 ->
  build_prs e2 a = inr prs2 ->
  length (slides prs1) = length (slides prs2)
  /\ map slide_title (slides prs1) = map slide_title (slides prs2)
  /\ deck_subtitle_text prs1 = deck_subtitle_text prs2.
Proof.
  intros e1 e2 a prs1 prs2 Hd H1 H2.
  apply build_prs_inv in H1 as [_ ->]. apply build_prs_inv in H2 as [_ ->].
  apply truthy_true in Hd. unfold str_or. rewrite Hd. repeat split.
Qed.

Lemma build_prs_reproducible_witness :
  length (slides (built_deck jane "01/01/2030"))
  = length (slides (built_deck jane "01/01/2030"))
  /\ map slide_title (slides (built_deck jane "01/01/2030"))
     = map slide_title (slides (built_deck jane "01/01/2030"))
  /\ deck_subtitle_text (built_deck jane "01/01/2030")
     = deck_subtitle_text (built_deck jane "01/01/2030").
Proof.
  apply (build_prs_reproducible (machine "2026-11-03") (machine "2026-11-04") jane).
  - discriminate.
  - apply build_prs_ok. reflexivity.
  - apply build_prs_ok. reflexivity.
Defined.

(** C8.  When the template image cannot be read, [build_prs] fails with
    the I/O error of that path, and [main] ends with that error without
    having saved a file or printed a line. *)
Theorem unreadable_image_fails_fast : forall e c w img,
  cli_template_image c = Some img ->
  readable e img = false ->
  (exists a, parse_args c = inr a /\ build_prs e a = inl (IOError img))
  /\ main e c w = (w, Some (IOError img)).
Proof.
  intros e c w img Hc H. unfold main, parse_args, ret. rewrite Hc.
  cbv beta iota. split.
  - eexists. split; [reflexivity|]. apply build_prs_fail. exact H.
  - rewrite build_prs_fail by exact H. reflexivity.
Qed.

Lemma unreadable_image_fails_fast_witness :
  (exists a, parse_args missing_image = inr a
             /\ build_prs (machine "2026-11-03") a = inl (IOError "missing.png"))
  /\ main (machine "2026-11-03") missing_image nothing_yet
     = (nothing_yet, Some (IOError "missing.png")).
Proof.
  apply (unreadable_image_fails_fast (machine "2026-11-03") missing_image
           nothing_yet "missing.png"); reflexivity.
Defined.

(** A run that succeeds writes the file and prints the confirmation. *)
Example main_sample :
  exists prs,
    main (machine "2026-11-03") only_image nothing_yet
    = ({| files := [("Playwright-MCP-Demo.pptx", prs)];
          stdout := ["Wrote Playwright-MCP-Demo.pptx"] |}, None).
Proof. eexists. vm_compute. reflexivity. Qed.

(** C10.  [add_notes] with an empty text hands the slide back as it was,
    and a content slide has a notes block exactly when its notes text is
    not empty. *)
Theorem notes_only_when_nonempty :
  (forall slide, add_notes slide "" = slide)
  /\ (forall e prs img title bullets notes_text prs' s,
        add_content_slide e prs img title bullets notes_text = inr (prs', s) ->
        (notes s <> None <-> notes_text <> "")).
Proof.
  split; [reflexivity|].
  intros e prs img title bullets notes_text prs' s H.
  apply add_content_slide_inv in H as [-> _].
  unfold content_slide. destruct notes_text as [|ch n]; simpl; split; congruence.
Qed.

Lemma notes_only_when_nonempty_witness :
  add_notes (backdrop Presentation "t.png") "" = backdrop Presentation "t.png"
  /\ (notes (content_slide Presentation "t.png" "Agenda" [IStr "Uses"] "Timing.") <> None
      <-> "Timing." <> "").
Proof.
  split.
  - apply (proj1 notes_only_when_nonempty).
  - apply (proj2 notes_only_when_nonempty (machine "2026-11-03") Presentation
             "t.png" "Agenda" [IStr "Uses"] "Timing."
             (append_slide (content_slide Presentation "t.png" "Agenda" [IStr "Uses"]
                              "Timing.") Presentation)).
    reflexivity.
Defined.

End DeckClaims.

(** ** The slide invariant holds *)
Module InvariantClaims.
Import Pptx Deck Observe Built BuildFacts Invariant Sample.

Lemma notes_blocks_le : forall s, length (notes_blocks s) <= 1.
Proof. intros s. unfold notes_blocks. destruct (notes s); simpl; lia. Qed.

Lemma backdrop_fills : forall prs img sh,
  In sh [Picture img (geom 0%Z 0%Z (slide_width prs) (slide_height prs))] ->
  fills_slide prs sh = true.
Proof.
  intros prs img sh [<- | []]. cbn [fills_slide geom left top width height].
  rewrite !Z.eqb_refl. reflexivity.
Qed.

Lemma content_slide_inv : forall prs img title bullets notes,
  slide_inv prs (content_slide prs img title bullets notes).
Proof.
  intros prs img title bullets notes. unfold slide_inv, count, content_slide.
  rewrite add_notes_shapes.
  split; [reflexivity|].
  split.
  { intros sh [<- | [<- | [<- | []]]] Hp; try discriminate Hp.
    apply (backdrop_fills prs img). now left. }
  split; [cbn; lia|].
  split; [cbn; lia|].
  apply notes_blocks_le.
Qed.

Lemma title_slide_inv : forall prs img title subtitle presenter org when,
  slide_inv prs (title_slide prs img title subtitle presenter org when).
Proof.
  intros prs img title subtitle presenter org when.
  unfold slide_inv, count, title_slide.
  split; [reflexivity|].
  split.
  { intros sh [<- | [<- | [<- | []]]] Hp; try discriminate Hp.
    apply (backdrop_fills prs img). now left. }
  split; [cbn; lia|].
  split; [cbn; lia|].
  apply notes_blocks_le.
Qed.

(** Appending a slide that satisfies the invariant keeps it: the slides
    already there are not touched and the canvas keeps its size. *)
Lemma append_slide_inv : forall prs s,
  deck_inv prs -> slide_inv prs s -> deck_inv (append_slide s prs).
Proof.
  intros prs s Hd Hs. unfold deck_inv in *. cbn [append_slide slides].
  apply Forall_app. split.
  - exact Hd.
  - constructor; [exact Hs | constructor].
Qed.

Lemma adds_slide_inv : forall e prs prs',
  deck_inv prs -> adds_slide e prs prs' -> deck_inv prs'.
Proof.
  intros e prs prs' Hd Hstep.
  destruct Hstep as [prs img title subtitle presenter org when prs' s H
                    | prs img title bullets notes prs' s H].
  - apply add_title_slide_inv in H as [-> ->].
    apply append_slide_inv; [exact Hd | apply title_slide_inv].
  - apply add_content_slide_inv in H as [-> ->].
    apply append_slide_inv; [exact Hd | apply content_slide_inv].
Qed.

Lemma append_contents_inv : forall img specs prs,
  deck_inv prs -> deck_inv (fold_left (append_content img) specs prs).
Proof.
  intros img specs. induction specs as [|[[title bullets] notes] specs IH]; intros prs Hd.
  - exact Hd.
  - cbn [fold_left]. apply IH. cbn [append_content].
    apply append_slide_inv; [exact Hd | apply content_slide_inv].
Qed.

Lemma built_deck_inv : forall a when, deck_inv (built_deck a when).
Proof.
  intros a when. unfold built_deck. apply append_contents_inv.
  apply append_slide_inv; [constructor | apply title_slide_inv].
Qed.

Lemma fails_adding_left : forall e prs prs',
  fails_adding e prs prs' -> prs' = append_slide blank_slide prs.
Proof.
  intros e prs prs' Hfail.
  destruct Hfail as [prs img title subtitle presenter org when err prs' H
                    | prs img title bullets notes err prs' H].
  - now apply add_title_slide_failed in H as (_ & _ & ->).
  - now apply add_content_slide_failed in H as (_ & _ & ->).
Qed.

(** C6, as stated, fails for a slide-adding operation that an exception
    leaves: the empty presentation satisfies the invariant, and
    [add_content_slide] with a template picture that cannot be read
    leaves it with one slide that has no picture. *)
Lemma failing_add_leaves_bare_slide :
  deck_inv Presentation
  /\ exists prs',
       add_content_slide (machine "2026-11-03") Presentation "missing.png" "Agenda"
                         [IStr "Uses"] "Timing."
       = inl (IOError "missing.png", prs')
       /\ slides prs' = [blank_slide]
       /\ count is_picture blank_slide = 0
       /\ ~ deck_inv prs'.
Proof.
  split; [constructor|].
  eexists. split; [reflexivity|].
  split; [reflexivity|]. split; [reflexivity|].
  intros H. inversion H as [|s rest (Hpic & _) _]; subst. discriminate Hpic.
Qed.

(** C6, amended.  Every slide of a document built by [build_prs] has
    exactly one picture, which sits at the origin with the width and
    height of the slide, at most one title box, at most one body box and
    at most one notes block; each of the two operations that add a slide
    keeps this true of every slide of the presentation when it returns;
    and when an exception leaves it, the slides that were there are as
    they were and still satisfy it, and one blank slide has been put
    after them. *)
Theorem slide_invariant :
  (forall e a prs, build_prs e a = inr prs -> deck_inv prs)
  /\ (forall e prs prs', deck_inv prs -> adds_slide e prs prs' -> deck_inv prs')
  /\ (forall e prs prs', deck_inv prs -> fails_adding e prs prs' ->
        slides prs' = slides prs ++ [blank_slide]
        /\ Forall (slide_inv prs') (slides prs)).
Proof.
  split; [|split].
  - intros e a prs H. apply build_prs_inv in H as [_ ->]. apply built_deck_inv.
  - exact adds_slide_inv.
  - intros e prs prs' Hd Hfail. apply fails_adding_left in Hfail as ->.
    split; [reflexivity | exact Hd].
Qed.

Lemma slide_invariant_witness :
  deck_inv (built_deck jane "01/01/2030")
  /\ deck_inv (append_slide
                 (content_slide Presentation "t.png" "Agenda" [IStr "Uses"] "Timing.")
                 Presentation)
  /\ (slides (append_slide blank_slide
                (append_slide (backdrop Presentation "t.png") Presentation))
      = slides (append_slide (backdrop Presentation "t.png") Presentation)
        ++ [blank_slide]
      /\ Forall (slide_inv (append_slide blank_slide
                              (append_slide (backdrop Presentation "t.png")
                                            Presentation)))
                (slides (append_slide (backdrop Presentation "t.png") Presentation))).
Proof.
  assert (Hone : deck_inv (append_slide (backdrop Presentation "t.png") Presentation)).
  { constructor; [|constructor].
    repeat split; try (cbn; lia).
    intros sh [<- | []] _. reflexivity. }
  split; [|split].
  - apply (proj1 slide_invariant (machine "2026-11-03") jane).
    apply build_prs_ok. reflexivity.
  - apply (proj1 (proj2 slide_invariant) (machine "2026-11-03") Presentation).
    + constructor.
    + apply (adds_content_slide (machine "2026-11-03") Presentation "t.png" "Agenda"
               [IStr "Uses"] "Timing." _
               (content_slide Presentation "t.png" "Agenda" [IStr "Uses"] "Timing.")).
      reflexivity.
  - apply (proj2 (proj2 slide_invariant) (machine "2026-11-03")
             (append_slide (backdrop Presentation "t.png") Presentation)).
    + exact Hone.
    + apply (fails_content_slide (machine "2026-11-03") _ "missing.png" "Agenda"
               [IStr "Uses"] "Timing." (IOError "missing.png")).
      reflexivity.
Defined.

(** The invariant is not vacuous: a slide with two pictures breaks it. *)
Example two_pictures_break_it :
  ~ slide_inv Presentation
      (add_shape (Picture "t.png" (geom 0%Z 0%Z (Inches 100) (Inches 75)))
                 (backdrop Presentation "t.png")).
Proof. intros (H & _). discriminate H. Qed.

End InvariantClaims.

(** ** More on the bullet loop *)
Module BulletExtras.
Import Pptx Deck Observe Outline OutlineFacts Built Sample Readback.

(** A bullet that is neither text nor a list or tuple is passed over:
    the slide is the one built from the bullets without it. *)
Theorem other_item_skipped : forall slide pre post,
  add_bullets slide (pre ++ IOther :: post) = add_bullets slide (pre ++ post).
Proof.
  intros slide pre post. unfold add_bullets, add_textbox, add_bullets_frame.
  rewrite !fold_left_app. reflexivity.
Qed.

(** A group that holds its heading and nothing else is rendered like the
    heading given as a plain line. *)
Theorem heading_only_group_is_line : forall slide pre heading post,
  add_bullets slide (pre ++ ISeq [heading] :: post)
  = add_bullets slide (pre ++ IStr heading :: post).
Proof.
  intros slide pre heading post. unfold add_bullets, add_textbox, add_bullets_frame.
  rewrite !fold_left_app. reflexivity.
Qed.

Lemma outline_levels : forall bullets,
  Forall (fun l => snd l <= 1) (outline bullets).
Proof.
  unfold outline. induction bullets as [|it bullets IH]; simpl.
  - constructor.
  - apply Forall_app. split; [|exact IH].
    destruct it as [s | [|heading subs] | ]; simpl; repeat constructor.
    induction subs as [|sub subs IHs]; simpl; constructor; auto.
Qed.

Lemma outline_starts_at_top : forall bullets l ls,
  outline bullets = l :: ls -> snd l = 0.
Proof.
  unfold outline. induction bullets as [|it bullets IH]; simpl; intros l ls H.
  - discriminate.
  - destruct it as [s | [|heading subs] | ]; simpl in H.
    + now injection H as <- _.
    + eauto.
    + now injection H as <- _.
    + eauto.
Qed.

(** The bullet box never goes deeper than depth 1, and it never opens
    with an indented paragraph: its first paragraph is at depth 0. *)
Theorem bullet_depths : forall bullets,
  Forall (fun d => d <= 1) (levels (add_bullets_frame bullets new_text_frame))
  /\ hd_error (levels (add_bullets_frame bullets new_text_frame)) = Some 0.
Proof.
  intros bullets. unfold levels. rewrite add_bullets_frame_paragraphs.
  pose proof (outline_levels bullets) as Hl.
  pose proof (outline_starts_at_top bullets) as Hs.
  destruct (outline bullets) as [|l ls].
  - split; [repeat constructor | reflexivity].
  - split.
    + apply Forall_map, Forall_map. revert Hl. apply Forall_impl.
      intros a Ha. exact Ha.
    + simpl. now rewrite (Hs l ls eq_refl).
Qed.

(** Every paragraph of a bullet box that renders at least one line is set
    in 22pt and leaves bold and colour to the theme. *)
Theorem bullet_fonts : forall bullets,
  outline bullets <> [] ->
  Forall (fun p => p_font_size p = Some (Pt 22)
                   /\ p_font_bold p = None /\ p_font_color p = None)
         (paragraphs (add_bullets_frame bullets new_text_frame)).
Proof.
  intros bullets H. rewrite add_bullets_frame_paragraphs.
  destruct (outline bullets) as [|l ls]; [contradiction|].
  apply Forall_map, Forall_forall. intros x _. repeat split.
Qed.

Lemma bullet_fonts_witness :
  Forall (fun p => p_font_size p = Some (Pt 22)
                   /\ p_font_bold p = None /\ p_font_color p = None)
         (paragraphs (add_bullets_frame core_components new_text_frame)).
Proof.
  apply (bullet_fonts core_components). discriminate.
Defined.

Lemma outline_app : forall b1 b2, outline (b1 ++ b2) = outline b1 ++ outline b2.
Proof. intros b1 b2. unfold outline. apply flat_map_app. Qed.

(** Bullets that are split in two parts, each rendering at least one
    line, give the paragraphs of the first part followed by those of the
    second. *)
Theorem add_bullets_frame_app : forall b1 b2,
  outline b1 <> [] ->
  outline b2 <> [] ->
  paragraphs (add_bullets_frame (b1 ++ b2) new_text_frame)
  = paragraphs (add_bullets_frame b1 new_text_frame)
    ++ paragraphs (add_bullets_frame b2 new_text_frame).
Proof.
  intros b1 b2 H1 H2. rewrite !add_bullets_frame_paragraphs, outline_app.
  destruct (outline b1) as [|l1 ls1]; [contradiction|].
  destruct (outline b2) as [|l2 ls2]; [contradiction|].
  cbn [app]. rewrite <- map_app. reflexivity.
Qed.

Lemma add_bullets_frame_app_witness :
  paragraphs (add_bullets_frame (core_components ++ [IStr "Uses"]) new_text_frame)
  = paragraphs (add_bullets_frame core_components new_text_frame)
    ++ paragraphs (add_bullets_frame [IStr "Uses"] new_text_frame).
Proof.
  apply (add_bullets_frame_app core_components [IStr "Uses"]); discriminate.
Defined.

(** Bullets that render no line in front of others change nothing. *)
Theorem silent_prefix_ignored : forall b1 b2,
  outline b1 = [] ->
  add_bullets_frame (b1 ++ b2) new_text_frame = add_bullets_frame b2 new_text_frame.
Proof.
  intros b1 b2 H. unfold add_bullets_frame. rewrite fold_left_app.
  f_equal. f_equal. clear b2.
  induction b1 as [|it b1 IH]; simpl.
  - reflexivity.
  - unfold outline in H. simpl in H. apply app_eq_nil in H as [Hi Hb].
    rewrite (add_item_skip _ _ Hi). apply IH. exact Hb.
Qed.

Lemma silent_prefix_ignored_witness :
  add_bullets_frame ([ISeq []; IOther] ++ core_components) new_text_frame
  = add_bullets_frame core_components new_text_frame.
Proof.
  apply (silent_prefix_ignored [ISeq []; IOther] core_components). reflexivity.
Defined.

End BulletExtras.

(** ** More on notes and on the slide builders *)
Module SlideExtras.
Import Pptx Deck Observe Outline OutlineFacts Built BuildFacts Invariant Sample Readback.

(** A non-empty notes text replaces whatever notes the slide had: the
    notes block then holds that text as its only paragraph, and the
    shapes of the slide are not touched. *)
Theorem add_notes_replaces : forall slide notes_text,
  notes_text <> "" ->
  exists tf,
    notes (add_notes slide notes_text) = Some tf
    /\ map p_text (paragraphs tf) = [notes_text]
    /\ shapes (add_notes slide notes_text) = shapes slide.
Proof.
  intros slide [|ch n] H; [contradiction|].
  eexists. repeat split.
Qed.

Lemma add_notes_replaces_witness :
  exists tf,
    notes (add_notes (add_notes blank_slide "Draft.") "Final.") = Some tf
    /\ map p_text (paragraphs tf) = ["Final."]
    /\ shapes (add_notes (add_notes blank_slide "Draft.") "Final.")
       = shapes (add_notes blank_slide "Draft.").
Proof.
  apply (add_notes_replaces (add_notes blank_slide "Draft.") "Final."). discriminate.
Defined.

(** Adding the same notes twice is the same as adding them once. *)
Theorem add_notes_idempotent : forall slide notes_text,
  add_notes (add_notes slide notes_text) notes_text = add_notes slide notes_text.
Proof.
  intros slide [|ch n]; reflexivity.
Qed.

(** Either operation that adds a slide puts exactly one slide at the end:
    the slides already there stay as they are and in their order, and the
    canvas keeps its size. *)
Theorem adds_slide_appends : forall e prs prs',
  adds_slide e prs prs' ->
  exists s,
    slides prs' = slides prs ++ [s]
    /\ slide_width prs' = slide_width prs
    /\ slide_height prs' = slide_height prs.
Proof.
  intros e prs prs' Hstep.
  destruct Hstep as [prs img title subtitle presenter org when prs' s H
                    | prs img title bullets notes prs' s H].
  - apply add_title_slide_inv in H as [_ ->]. exists s. repeat split.
  - apply add_content_slide_inv in H as [_ ->]. exists s. repeat split.
Qed.

Lemma adds_slide_appends_witness :
  exists s,
    slides (append_slide
              (content_slide Presentation "t.png" "Agenda" [IStr "Uses"] "")
              Presentation)
    = slides Presentation ++ [s]
    /\ slide_width (append_slide
                      (content_slide Presentation "t.png" "Agenda" [IStr "Uses"] "")
                      Presentation) = slide_width Presentation
    /\ slide_height (append_slide
                       (content_slide Presentation "t.png" "Agenda" [IStr "Uses"] "")
                       Presentation) = slide_height Presentation.
Proof.
  apply (adds_slide_appends (machine "2026-11-03") Presentation).
  apply (adds_content_slide (machine "2026-11-03") Presentation "t.png" "Agenda"
           [IStr "Uses"] "" _
           (content_slide Presentation "t.png" "Agenda" [IStr "Uses"] "")).
  reflexivity.
Defined.

Lemma content_slide_title : forall prs img title bullets notes,
  slide_title (content_slide prs img title bullets notes) = Some title.
Proof.
  intros prs img title bullets notes.
  unfold slide_title, title_box, text_frames, content_slide.
  rewrite add_notes_shapes. reflexivity.
Qed.

Lemma content_slide_body : forall prs img title bullets notes,
  body_box (content_slide prs img title bullets notes)
  = Some (add_bullets_frame bullets new_text_frame).
Proof.
  intros prs img title bullets notes.
  unfold body_box, text_frames, content_slide.
  rewrite add_notes_shapes. reflexivity.
Qed.

Lemma content_slide_notes : forall prs img title bullets notes,
  notes_text (content_slide prs img title bullets notes)
  = if truthy notes then Some notes else None.
Proof.
  intros prs img title bullets [|ch n]; reflexivity.
Qed.





Lemma add_content_slides_inv : forall e img specs prs prs',
  add_content_slides e prs img specs = inr prs' ->
  prs' = fold_left (append_content img) specs prs.
Proof.
  intros e img specs prs prs' H. destruct specs as [|spec specs].
  - now injection H as <-.
  - destruct (readable e img) eqn:R.
    + rewrite (add_content_slides_ok _ _ _ _ R) in H. now injection H as <-.
    + rewrite (add_content_slides_fail _ _ _ _ _ R) in H. discriminate.
Qed.

(** The loop over the content list adds one slide per specification, in
    the order of the list and after the slides already there: the slide
    of the i-th specification carries its title, the bullet box made from
    its bullets, and its notes when they are not empty. *)
Theorem add_content_slides_in_order : forall e prs img specs prs',
  add_content_slides e prs img specs = inr prs' ->
  length (slides prs') = length (slides prs) + length specs
  /\ forall i title bullets notes,
       nth_error specs i = Some (title, bullets, notes) ->
       exists s,
         nth_error (slides prs') (length (slides prs) + i) = Some s
         /\ slide_title s = Some title
         /\ body_box s = Some (add_bullets_frame bullets new_text_frame)
         /\ notes_text s = if truthy notes then Some notes else None.
Proof.
  intros e prs img specs prs' H.
  apply add_content_slides_inv in H as ->.
  destruct (append_contents_slides img specs prs) as (Hs & _ & _).
  rewrite Hs. split.
  - rewrite length_app, length_map. reflexivity.
  - intros i title bullets notes Hi.
    exists (content_slide prs img title bullets notes). split.
    + rewrite nth_error_app2 by lia.
      replace (length (slides prs) + i - length (slides prs)) with i by lia.
      rewrite nth_error_map, Hi. reflexivity.
    + split; [apply content_slide_title|].
      split; [apply content_slide_body | apply content_slide_notes].
Qed.

Lemma add_content_slides_in_order_witness :
  exists prs',
    add_content_slides (machine "2026-11-03") Presentation "t.png"
      [("Agenda", [IStr "Uses"], "Timing."); ("Uses", core_components, "")] = inr prs'
    /\ length (slides prs') = length (slides Presentation) + 2.
Proof.
  eexists. split; [reflexivity|].
  apply (add_content_slides_in_order (machine "2026-11-03") Presentation "t.png"
           [("Agenda", [IStr "Uses"], "Timing."); ("Uses", core_components, "")]).
  reflexivity.
Defined.

(** The loop fails only on a template picture that cannot be read, with
    the I/O error of that path, and only when there is a slide to add. *)
Theorem add_content_slides_failure : forall e prs img specs err,
  add_content_slides e prs img specs = inl err ->
  err = IOError img /\ readable e img = false /\ specs <> [].
Proof.
  intros e prs img specs err H. destruct specs as [|spec specs].
  - discriminate H.
  - destruct (readable e img) eqn:R.
    + rewrite (add_content_slides_ok _ _ _ _ R) in H. discriminate.
    + rewrite (add_content_slides_fail _ _ _ _ _ R) in H.
      injection H as <-. repeat split. discriminate.
Qed.

Lemma add_content_slides_failure_witness :
  IOError "missing.png" = IOError "missing.png"
  /\ readable (machine "2026-11-03") "missing.png" = false
  /\ [("Agenda", [IStr "Uses"], "Timing.")] <> [].
Proof.
  apply (add_content_slides_failure (machine "2026-11-03") Presentation "missing.png"
           [("Agenda", [IStr "Uses"], "Timing.")] (IOError "missing.png")).
  reflexivity.
Defined.

End SlideExtras.

(** ** More on the build and on the command line *)
Module RunExtras.
Import Pptx Deck Observe Outline OutlineFacts Built BuildFacts Sample Readback.
Import SlideExtras.

(** [build_prs] returns a document exactly when the template picture can
    be read; otherwise it fails with the I/O error of that path and with
    nothing else. *)
Theorem build_prs_outcome : forall e a,
  ((exists prs, build_prs e a = inr prs) <-> readable e (template_image a) = true)
  /\ (forall err, build_prs e a = inl err -> err = IOError (template_image a)).
Proof.
  intros e a. destruct (readable e (template_image a)) eqn:R.
  - rewrite (build_prs_ok _ _ R). split.
    + split; [reflexivity | intros _; eexists; reflexivity].
    + intros err H. discriminate.
  - rewrite (build_prs_fail _ _ R). split.
    + split; [intros [prs H]; discriminate | discriminate].
    + intros err H. now injection H as <-.
Qed.

Lemma build_prs_outcome_witness :
  ((exists prs, build_prs (machine "2026-11-03") jane = inr prs)
   <-> readable (machine "2026-11-03") (template_image jane) = true)
  /\ (forall err, build_prs (machine "2026-11-03") jane = inl err ->
                  err = IOError (template_image jane)).
Proof.
  exact (build_prs_outcome (machine "2026-11-03") jane).
Defined.

(** The titles of a built deck, in slide order, are the deck title given
    on the command line followed by the titles of the content list in
    the order of the list. *)
Theorem build_prs_titles : forall e a prs,
  build_prs e a = inr prs ->
  map slide_title (slides prs)
  = Some (title a) :: map (fun spec => Some (fst (fst spec))) slide_specs.
Proof.
  intros e a prs H. apply build_prs_inv in H as [_ ->].
  rewrite built_deck_slides. cbn [map]. rewrite map_map.
  rewrite (map_ext _ (fun spec => Some (fst (fst spec))));
    [reflexivity | intros [[t b] n]; apply content_slide_title].
Qed.

Lemma build_prs_titles_witness :
  map slide_title (slides (built_deck jane "01/01/2030"))
  = Some (title jane) :: map (fun spec => Some (fst (fst spec))) slide_specs.
Proof.
  apply (build_prs_titles (machine "2026-11-03") jane).
  apply build_prs_ok. reflexivity.
Defined.

(** The notes of a built deck, in slide order: none on the title slide,
    then for each entry of the content list its notes, or none when they
    are empty. *)
Theorem build_prs_notes : forall e a prs,
  build_prs e a = inr prs ->
  map notes_text (slides prs)
  = None :: map (fun spec => if truthy (snd spec) then Some (snd spec) else None)
                slide_specs.
Proof.
  intros e a prs H. apply build_prs_inv in H as [_ ->].
  rewrite built_deck_slides. cbn [map]. rewrite map_map.
  rewrite (map_ext _ (fun spec => if truthy (snd spec) then Some (snd spec) else None));
    [reflexivity | intros [[t b] n]; apply content_slide_notes].
Qed.

Lemma build_prs_notes_witness :
  map notes_text (slides (built_deck jane "01/01/2030"))
  = None :: map (fun spec => if truthy (snd spec) then Some (snd spec) else None)
                slide_specs.
Proof.
  apply (build_prs_notes (machine "2026-11-03") jane).
  apply build_prs_ok. reflexivity.
Defined.

Lemma build_prs_outcome_aux : forall e a err,
  build_prs e a = inl err -> err = IOError (template_image a).
Proof.
  intros e a err H. destruct (readable e (template_image a)) eqn:R.
  - rewrite (build_prs_ok _ _ R) in H. discriminate.
  - rewrite (build_prs_fail _ _ R) in H. now injection H as <-.
Qed.

Lemma parse_args_fields : forall (c : cli) a,
  parse_args c = inr a ->
  cli_template_image c = Some (template_image a)
  /\ out a = out_path c
  /\ date a = with_default (cli_date c) "07/11/2025".
Proof.
  intros c a H. unfold parse_args in H.
  destruct (cli_template_image c) as [img|]; [|discriminate].
  injection H as <-. repeat split.
Qed.

(** Runs that end in the parser.  On a command line of options only
    that lacks [--template-image], and on one the parser refuses, the
    run ends with the parser's error exit: nothing is built or saved and
    nothing is written on standard output.  On a command line that asks
    for help, with or without [--template-image], the parser writes its
    help text on standard output and the run ends with the help exit:
    nothing is built or saved. *)
Theorem main_usage_error :
  (forall e c w,
     cli_template_image c = None ->
     main e c w = (w, Some UsageError))
  /\ (forall e w, main e Unrecognized w = (w, Some UsageError))
  /\ (forall e text w,
        main e (Help text) w
        = ({| files := files w; stdout := stdout w ++ [text] |}, Some HelpExit)).
Proof.
  split; [|split].
  - intros e c w H. unfold main, parse_args. rewrite H. reflexivity.
  - reflexivity.
  - reflexivity.
Qed.

Lemma main_usage_error_witness :
  main (machine "2026-11-03")
       {| cli_template_image := None; cli_out := Some "deck.pptx"; cli_title := None;
          cli_presenter := None; cli_org := None; cli_date := None |}
       nothing_yet
  = (nothing_yet, Some UsageError).
Proof.
  apply (proj1 main_usage_error (machine "2026-11-03")). reflexivity.
Defined.

(** With a readable template picture and a writable output path, the run
    saves the built deck at the output path, prints the confirmation line
    that names that path, and ends without an exception. *)
Theorem main_success : forall e c w img,
  cli_template_image c = Some img ->
  readable e img = true ->
  writable e (out_path c) = true ->
  exists a prs,
    parse_args c = inr a
    /\ build_prs e a = inr prs
    /\ main e c w
       = ({| files := (out_path c, prs) :: files w;
             stdout := stdout w ++ [("Wrote " ++ out_path c)%string] |}, None).
Proof.
  intros e c w img Hc Hr Hw. unfold main, parse_args, ret. rewrite Hc.
  cbv beta iota. eexists _, _. split; [reflexivity|].
  rewrite build_prs_ok by exact Hr. split; [reflexivity|].
  unfold save. cbn [out]. unfold out_path in Hw. rewrite Hw. reflexivity.
Qed.

Lemma main_success_witness :
  exists a prs,
    parse_args only_image = inr a
    /\ build_prs (machine "2026-11-03") a = inr prs
    /\ main (machine "2026-11-03") only_image nothing_yet
       = ({| files := (out_path only_image, prs) :: files nothing_yet;
             stdout := stdout nothing_yet
                       ++ [("Wrote " ++ out_path only_image)%string] |}, None).
Proof.
  apply (main_success (machine "2026-11-03") only_image nothing_yet "t.png");
    reflexivity.
Defined.

(** When the deck is built but the output path cannot be written, the
    run ends with the I/O error of the output path and the confirmation
    line is not printed. *)
Theorem main_unwritable_output : forall e c w img,
  cli_template_image c = Some img ->
  readable e img = true ->
  writable e (out_path c) = false ->
  snd (main e c w) = Some (IOError (out_path c))
  /\ stdout (fst (main e c w)) = stdout w.
Proof.
  intros e c w img Hc Hr Hw. unfold main, parse_args, ret. rewrite Hc.
  cbv beta iota. rewrite build_prs_ok by exact Hr.
  unfold save. cbn [out]. unfold out_path in Hw. rewrite Hw. split; reflexivity.
Qed.

Lemma main_unwritable_output_witness :
  snd (main {| readable := fun _ => true; writable := fun _ => false;
               today := "2026-11-03" |} only_image nothing_yet)
  = Some (IOError (out_path only_image))
  /\ stdout (fst (main {| readable := fun _ => true; writable := fun _ => false;
                          today := "2026-11-03" |} only_image nothing_yet))
     = stdout nothing_yet.
Proof.
  apply (main_unwritable_output
           {| readable := fun _ => true; writable := fun _ => false;
              today := "2026-11-03" |} only_image nothing_yet "t.png");
    reflexivity.
Defined.

(** Every run of [main] is of one of three kinds: it ends without an
    exception, on a command line of options only, and has written
    exactly the confirmation line on standard output; or the parser was
    asked for its help, has written the help text there and has left
    with [HelpExit]; or it ends with another exception and has written
    nothing on standard output. *)
Theorem main_confirms_iff_done : forall e (i : invocation) w,
  (exists c, i = Options c
             /\ snd (main e i w) = None
             /\ stdout (fst (main e i w))
                = stdout w ++ [("Wrote " ++ out_path c)%string])
  \/ (exists text, i = Help text
                   /\ main e i w
                      = ({| files := files w; stdout := stdout w ++ [text] |},
                         Some HelpExit))
  \/ (snd (main e i w) <> None
      /\ snd (main e i w) <> Some HelpExit
      /\ stdout (fst (main e i w)) = stdout w).
Proof.
  intros e [c | text | ] w.
  - unfold main. destruct (parse_args c) as [err|a] eqn:P.
    + right. right. unfold parse_args in P.
      destruct (cli_template_image c); [discriminate P|].
      injection P as <-. repeat split; discriminate.
    + apply parse_args_fields in P as (_ & Ho & _).
      destruct (build_prs e a) as [err|prs] eqn:B.
      * right. right.
        pose proof (build_prs_outcome_aux e a err B) as ->.
        repeat split; discriminate.
      * unfold save. destruct (writable e (out a)).
        -- left. exists c. rewrite <- Ho. repeat split.
        -- right. right. repeat split; discriminate.
  - right. left. exists text. split; reflexivity.
  - right. right. repeat split; discriminate.
Qed.

(** Unless the date is given as the empty string, the day of the run has
    no part in what a run does: on machines with the same files, the
    outcome, the saved deck and the printed lines are the same. *)
Theorem main_day_independent : forall e1 e2 c w,
  same_files e1 e2 ->
  cli_date c <> Some "" ->
  main e1 c w = main e2 c w.
Proof.
  intros e1 e2 c w [Hr Hw] Hd. unfold main.
  destruct (parse_args c) as [err|a] eqn:P; [reflexivity|].
  apply parse_args_fields in P as (_ & _ & Hdate).
  assert (Hne : truthy (date a) = true).
  { rewrite Hdate. destruct (cli_date c) as [[|ch d]|]; try reflexivity.
    now contradiction Hd. }
  assert (Hb : build_prs e1 a = build_prs e2 a).
  { destruct (readable e1 (template_image a)) eqn:R.
    - rewrite (build_prs_ok e1 a R).
      rewrite (build_prs_ok e2 a) by (rewrite <- Hr; exact R).
      unfold str_or. rewrite Hne. reflexivity.
    - rewrite (build_prs_fail e1 a R).
      rewrite (build_prs_fail e2 a) by (rewrite <- Hr; exact R).
      reflexivity. }
  rewrite Hb. destruct (build_prs e2 a) as [err|prs]; [reflexivity|].
  unfold save. rewrite Hw. reflexivity.
Qed.

Lemma main_day_independent_witness :
  main (machine "2026-11-03") only_image nothing_yet
  = main (machine "2026-11-04") only_image nothing_yet.
Proof.
  apply (main_day_independent (machine "2026-11-03") (machine "2026-11-04")
           only_image nothing_yet).
  - split; reflexivity.
  - discriminate.
Defined.

End RunExtras.
